(** * AEIFDataset: the multi-file frame adapter of kiss_icp/datasets/aeif.py

    A shallow embedding of [AEIFDataset] (python/kiss_icp/datasets/aeif.py).
    Python integers are [Z], Python strings are [string] (one [ascii] per
    character, so the development speaks about ASCII specifiers and file
    names), Python lists are [list].  Exceptions are values of [result];
    printing and the calls into the record reader are events of a trace.

    The reader library (aeifdataset), numpy, [glob] and the file system are
    not part of the repository: they appear as parameters. *)

From Stdlib Require Import ZArith List String Ascii Bool Lia DecimalString.
Import ListNotations.

Open Scope string_scope.
Open Scope list_scope.
Open Scope Z_scope.

Set Implicit Arguments.

(** ** Exceptions *)

Module Py.

Inductive exn : Type :=
| ValueError
| IndexError
| OSError.

Inductive result (A : Type) : Type :=
| Ok (a : A)
| Raise (e : exn).

Arguments Ok {A} a.
Arguments Raise {A} e.

Definition bind {A B : Type} (m : result A) (f : A -> result B) : result B :=
  match m with
  | Ok a => f a
  | Raise e => Raise e
  end.

Declare Scope py_scope.
Delimit Scope py_scope with py.

Notation "x <- m ;; k" := (bind m (fun x => k))
  (at level 61, m at next level, right associativity) : py_scope.
Notation "' pat <- m ;; k" := (bind m (fun x => match x with pat => k end))
  (at level 61, pat pattern, m at next level, right associativity) : py_scope.

(** ** Lists *)

(** [len(l)] *)
Definition len {A : Type} (l : list A) : Z := Z.of_nat (List.length l).

(** [sum(l)] for a list of integers: left to right from 0. *)
Definition sum (l : list Z) : Z := fold_left Z.add l 0.

(** [l[i]] for a list: negative indices count from the end, anything
    outside raises IndexError. *)
Definition index {A : Type} (l : list A) (i : Z) : result A :=
  let j := if i <? 0 then i + len l else i in
  if j <? 0 then Raise IndexError
  else match nth_error l (Z.to_nat j) with
       | Some a => Ok a
       | None => Raise IndexError
       end.

(** The bounds of [l[a:b]] (PySlice_AdjustIndices, step 1). *)
Definition adjust (n i : Z) : Z :=
  if i <? 0 then Z.max 0 (i + n) else Z.min i n.

(** [l[a:b]] *)
Definition slice {A : Type} (l : list A) (a b : Z) : list A :=
  let a' := adjust (len l) a in
  let b' := adjust (len l) b in
  firstn (Z.to_nat (b' - a')) (skipn (Z.to_nat a') l).

(** Unpacking an iterable into two targets, [x, y = l]. *)
Definition unpack2 {A : Type} (l : list A) : result (A * A) :=
  match l with
  | [x; y] => Ok (x, y)
  | _ => Raise ValueError
  end.

(** ** Strings *)

(** [s.split(sep)] for a one-character separator. *)
Fixpoint split (sep : ascii) (s : string) : list string :=
  match s with
  | EmptyString => [EmptyString]
  | String c rest =>
      if Ascii.eqb c sep then EmptyString :: split sep rest
      else match split sep rest with
           | [] => [String c EmptyString]
           | hd :: tl => String c hd :: tl
           end
  end.

(** [s[n:]] for [n >= 0]. *)
Fixpoint drop (n : nat) (s : string) : string :=
  match n, s with
  | O, _ => s
  | S _, EmptyString => EmptyString
  | S n', String _ rest => drop n' rest
  end.

(** The characters [int] strips: the ASCII part of Python's whitespace. *)
Definition is_space (c : ascii) : bool :=
  let n := nat_of_ascii c in
  ((9 <=? n)%nat && (n <=? 13)%nat) ||
  ((28 <=? n)%nat && (n <=? 32)%nat).

Definition digit_of (c : ascii) : option Z :=
  let n := Z.of_nat (nat_of_ascii c) in
  if (48 <=? n) && (n <=? 57) then Some (n - 48) else None.

Fixpoint lstrip (cs : list ascii) : list ascii :=
  match cs with
  | c :: rest => if is_space c then lstrip rest else cs
  | [] => []
  end.

Definition strip (cs : list ascii) : list ascii :=
  rev (lstrip (rev (lstrip cs))).

(** Decimal digits with single underscores between them.  [seen] says
    whether the previous character was a digit; the value and the number
    of digits read so far are threaded through. *)
Fixpoint digits (cs : list ascii) (seen : bool) (acc : Z) (n : Z)
  : option (Z * Z) :=
  match cs with
  | [] => if seen then Some (acc, n) else None
  | c :: rest =>
      match digit_of c with
      | Some d => digits rest true (10 * acc + d) (n + 1)
      | None =>
          if Ascii.eqb c "_"%char && seen then digits rest false acc n
          else None
      end
  end.

(** sys.int_info.default_max_str_digits *)
Definition max_str_digits : Z := 4300.

(** [int(s)] for a string [s], base 10. *)
Definition int (s : string) : result Z :=
  let body := strip (list_ascii_of_string s) in
  let '(neg, ds) :=
    match body with
    | c :: rest =>
        if Ascii.eqb c "-"%char then (true, rest)
        else if Ascii.eqb c "+"%char then (false, rest)
        else (false, body)
    | [] => (false, body)
    end in
  match digits ds false 0 0 with
  | Some (v, n) =>
      if max_str_digits <? n then Raise ValueError
      else Ok (if neg then - v else v)
  | None => Raise ValueError
  end.

(** ** Paths (posixpath) *)

Fixpoint ends_with_sep (s : string) : bool :=
  match s with
  | EmptyString => false
  | String c EmptyString => Ascii.eqb c "/"%char
  | String _ rest => ends_with_sep rest
  end.

(** [os.path.join(a, b)] *)
Definition path_join (a b : string) : string :=
  match b with
  | String "/"%char _ => b
  | _ =>
      match a with
      | EmptyString => b
      | _ => if ends_with_sep a then (a ++ b)%string else (a ++ "/" ++ b)%string
      end
  end.

(** [os.path.basename(p)]: what follows the last separator. *)
Definition basename (p : string) : string :=
  last (split "/"%char p) EmptyString.

(** ** Sorting *)

Fixpoint insert_sorted (x : string) (l : list string) : list string :=
  match l with
  | [] => [x]
  | y :: rest =>
      if String.leb x y then x :: l else y :: insert_sorted x rest
  end.

(** [sorted(l)] on strings: ascending in the order of the character
    codes.  Strings that compare equal are identical, so the result does
    not depend on the sorting algorithm. *)
Definition sorted (l : list string) : list string :=
  fold_right insert_sorted [] l.

End Py.

Import Py.
Open Scope py_scope.

(** ** The adapter *)

Section AEIF.

(** Types of the record reader and of numpy. *)
Variables Frame Lidar Image Info ProjImg Array Scalar : Type.

(** [frame.timestamp], [frame.vehicle.lidars.TOP],
    [frame.vehicle.cameras.STEREO_LEFT], [points['x']], [lidar.info],
    [Lidar(info, Points(points))], [get_projection_img(img, lidar)]. *)
Variable frame_timestamp : Frame -> Scalar.
Variable lidars_TOP : Frame -> Lidar.
Variable cameras_STEREO_LEFT : Frame -> Image.
Variable field : Lidar -> string -> Array.
Variable lidar_info : Lidar -> Info.
Variable mk_Lidar : Info -> Array -> Lidar.
Variable get_projection_img : Image -> Lidar -> ProjImg.

(** [np.stack(arrays, axis=-1)], [a.min()], [a.max()], [a - b], [a / b]. *)
Variable np_stack : list Array -> Array.
Variable np_min np_max : Array -> result Array.
Variable np_sub np_div : Array -> Array -> Array.

(** A file record of the reader: its [num_frames] attribute, what
    [record[i]] gives and the frames [for frame in record] runs through.
    The reader decides how the three relate. *)
Record FileRecord : Type := {
  num_frames : Z;
  getitem : Z -> result Frame;
  iter : list Frame
}.

(** [glob.glob(pattern)] on the file system at hand, and
    [Dataloader(directory)] as the list of records it holds. *)
Variable glob : string -> list string.
Variable Dataloader : string -> result (list FileRecord).

(** *** Effects *)

Inductive event : Type :=
| Print (msg : string)
| GetFrame (file : FileRecord) (local_idx : Z)
| Save (name : string) (img : ProjImg).

Definition M (A : Type) : Type := (list event * result A)%type.

Definition mret {A : Type} (a : A) : M A := ([], Ok a).

Definition mbind {A B : Type} (m : M A) (f : A -> M B) : M B :=
  match m with
  | (t, Ok a) => let '(t', r) := f a in (t ++ t', r)
  | (t, Raise e) => (t, Raise e)
  end.

Definition lift {A : Type} (r : result A) : M A := ([], r).

Definition emit (e : event) : M unit := ([e], Ok tt).

Notation "x <~ m ;; k" := (mbind m (fun x => k))
  (at level 61, m at next level, right associativity).
Notation "' pat <~ m ;; k" := (mbind m (fun x => match x with pat => k end))
  (at level 61, pat pattern, m at next level, right associativity).

(** [record[local_idx]], seen from outside. *)
Definition read_frame (file : FileRecord) (local_idx : Z) : M Frame :=
  ([GetFrame file local_idx], getitem file local_idx).

(** *** State of an [AEIFDataset] *)

Record AEIFDataset : Type := {
  sequence_id : string;
  _sequence_name : string;
  _aeif_sequence_dir : string;
  _start_file : Z;
  _end_file : Z;
  scan_files : list FileRecord;
  _files_buffer : list FileRecord;
  _frames_per_file : list Z
}.

(** *** Resolving the file range *)

(** [int(os.path.basename(file_path).split('_')[0][2:])] *)
Definition file_id_of (file_path : string) : result Z :=
  let file_name := basename file_path in
  first <- index (split "_" file_name) 0 ;;
  int (drop 2 first).

(** The loop of [_filter_file_range] from position [idx] on. *)
Fixpoint filter_loop (files : list string) (idx : Z) (start_id end_id : Z)
    (start_file end_file : Z) : result (Z * Z) :=
  match files with
  | [] => Ok (start_file, end_file)
  | file_path :: rest =>
      file_id <- file_id_of file_path ;;
      let start_file :=
        if (file_id =? start_id) && (start_file =? 0) then idx
        else start_file in
      if file_id =? end_id then Ok (start_file, idx + 1)
      else filter_loop rest (idx + 1) start_id end_id start_file end_file
  end.

Definition _filter_file_range (aeif_sequence_dir : string)
    (start_id end_id : option Z) : result (Z * Z) :=
  let all_files := sorted (glob (path_join aeif_sequence_dir "*.4mse")) in
  let start_file := 0 in
  let end_file := len all_files in
  match start_id, end_id with
  | Some s, Some e => filter_loop all_files 0 s e start_file end_file
  | _, _ => Ok (start_file, end_file)
  end.

(** *** Construction *)

(** The body of the [try]: name and range of a specifier.  Every way
    this fails (a wrong number of parts, a part [int] refuses) is a
    ValueError. *)
Definition parse_sequence (sequence : string) : result (string * Z * Z) :=
  '(name, file_range) <- unpack2 (split "#" sequence) ;;
  '(a, b) <- unpack2 (split "-" file_range) ;;
  start_id <- int a ;;
  end_id <- int b ;;
  Ok (name, start_id, end_id).

Definition no_maneuver_message : string :=
  "No maneuver specified. Processing all files at once. "
  ++ "To process a specific range, specify `sequence#id-id`.".

Definition _create_buffer (scan_files : list FileRecord) : list FileRecord :=
  fold_left (fun buffer record => buffer ++ [record]) scan_files [].

Definition _get_num_frames (files_buffer : list FileRecord) : list Z :=
  fold_left (fun num_frames_ record => num_frames_ ++ [num_frames record])
            files_buffer [].

Definition __init__ (data_dir sequence : string) : M AEIFDataset :=
  '(name, start_id, end_id) <~
     match parse_sequence sequence with
     | Ok (name, s, e) => mret (name, Some s, Some e)
     | Raise ValueError =>
         _ <~ emit (Print no_maneuver_message) ;;
         mret (sequence, None, None)
     | Raise e => lift (Raise e)
     end ;;
  let aeif_sequence_dir := path_join data_dir name in
  '(start_file, end_file) <~
     lift (_filter_file_range aeif_sequence_dir start_id end_id) ;;
  records <~ lift (Dataloader aeif_sequence_dir) ;;
  let scan_files := slice records start_file end_file in
  let files_buffer := _create_buffer scan_files in
  let frames_per_file := _get_num_frames files_buffer in
  mret {| sequence_id := sequence;
          _sequence_name := name;
          _aeif_sequence_dir := aeif_sequence_dir;
          _start_file := start_file;
          _end_file := end_file;
          scan_files := scan_files;
          _files_buffer := files_buffer;
          _frames_per_file := frames_per_file |}.

(** *** The frame index *)

Definition __len__ (self : AEIFDataset) : Z := sum (_frames_per_file self).

(** The loop of [_find_file_and_frame] from file [file_idx] on, with the
    running [total]. *)
Fixpoint find_loop (frames : list Z) (file_idx total target : Z)
  : result (Z * Z) :=
  match frames with
  | [] => Raise ValueError
  | num :: rest =>
      let total := total + num in
      if target <? total then
        let frame_idx := target - (total - num) in
        Ok (file_idx, frame_idx)
      else find_loop rest (file_idx + 1) total target
  end.

Definition _find_file_and_frame (self : AEIFDataset) (target : Z)
  : result (Z * Z) :=
  find_loop (_frames_per_file self) 0 0 target.

(** *** Reading frames *)

Definition _get_timestamps (points : Lidar) : result Array :=
  let points_ts := field points "t" in
  lo <- np_min points_ts ;;
  hi <- np_max points_ts ;;
  lo' <- np_min points_ts ;;
  Ok (np_div (np_sub points_ts lo) (np_sub hi lo')).

Definition read_point_cloud (scan_file : FileRecord) (frame_idx : Z)
  : M (Array * Array) :=
  frame <~ read_frame scan_file frame_idx ;;
  let points := lidars_TOP frame in
  let xyz_points :=
    np_stack [field points "x"; field points "y"; field points "z"] in
  ts <~ lift (_get_timestamps points) ;;
  mret (xyz_points, ts).

Definition scans (self : AEIFDataset) (file_idx frame_idx : Z)
  : M (Array * Array) :=
  file <~ lift (index (_files_buffer self) file_idx) ;;
  read_point_cloud file frame_idx.

Definition __getitem__ (self : AEIFDataset) (idx : Z) : M (Array * Array) :=
  '(file_idx, frame_idx) <~ lift (_find_file_and_frame self idx) ;;
  scans self file_idx frame_idx.

(** [np.array(l).reshape(-1, 1)]: one row of one entry per element. *)
Definition reshape_column {A : Type} (l : list A) : list (list A) :=
  map (fun x => [x]) l.

Definition get_frames_timestamps (self : AEIFDataset) : list (list Scalar) :=
  let timestamps :=
    fold_left
      (fun timestamps file =>
         fold_left
           (fun timestamps frame => timestamps ++ [frame_timestamp frame])
           (iter file) timestamps)
      (_files_buffer self) [] in
  reshape_column timestamps.

(** [f'{idx}.png'] *)
Definition png_name (idx : Z) : string :=
  (NilZero.string_of_int (Z.to_int idx) ++ ".png")%string.

Definition project_points (self : AEIFDataset) (idx : Z)
    (points : option Array) : M unit :=
  '(file_idx, frame_idx) <~ lift (_find_file_and_frame self idx) ;;
  file <~ lift (index (_files_buffer self) file_idx) ;;
  camera_frame <~ read_frame file (frame_idx + 1) ;;
  let img := cameras_STEREO_LEFT camera_frame in
  file' <~ lift (index (_files_buffer self) file_idx) ;;
  lidar_frame <~ read_frame file' frame_idx ;;
  let lidar :=
    match points with
    | None => lidars_TOP lidar_frame
    | Some pts => mk_Lidar (lidar_info (lidars_TOP lidar_frame)) pts
    end in
  let proj_img := get_projection_img img lidar in
  emit (Save (png_name idx) proj_img).

End AEIF.

(** *** Vocabulary of the statements *)

(** The frames held by the first [k] files of a frame-count table. *)
Definition frames_before (frames : list Z) (k : Z) : Z :=
  sum (firstn (Z.to_nat k) frames).

(** Order on (file, frame) pairs: by file, then by frame. *)
Definition lex_le (p q : Z * Z) : Prop :=
  fst p < fst q \/ (fst p = fst q /\ snd p <= snd q).

(** The local indices a record has frames for. *)
Definition in_frame_range {Frame : Type} (file : FileRecord Frame) (i : Z)
  : Prop :=
  0 <= i < num_frames file.



(** [has_ids files ids]: every file name parses, to the ID at the same
    position. *)
Definition has_ids (files : list string) (ids : list Z) : Prop :=
  Forall2 (fun file_path id => file_id_of file_path = Ok id) files ids.

(** [c in s] *)
Fixpoint contains (c : ascii) (s : string) : bool :=
  match s with
  | EmptyString => false
  | String d rest => Ascii.eqb d c || contains c rest
  end.





(** The images a run has saved, with their names, in order. *)
Definition saved {Frame ProjImg : Type} (events : list (event Frame ProjImg))
  : list (string * ProjImg) :=
  flat_map (fun ev => match ev with
                      | Save _ name img => [(name, img)]
                      | _ => []
                      end) events.

(** ** A small recording

    Three directories under [data]: [seq] with the IDs 10 to 14, [dup]
    where two files carry the ID 5, and nothing else.  A frame is its
    capture time; a record answers [record[i]] the way a list does. *)

Module Sample.

Definition record_of (times : list Z) : FileRecord Z :=
  {| num_frames := len times;
     getitem := fun i => index times i;
     iter := times |}.

Definition glob (pattern : string) : list string :=
  if String.eqb pattern "data/seq/*.4mse" then
    ["data/seq/id12_2024-09-27_10-31-34.4mse";
     "data/seq/id10_2024-09-27_10-31-32.4mse";
     "data/seq/id14_2024-09-27_10-31-36.4mse";
     "data/seq/id11_2024-09-27_10-31-33.4mse";
     "data/seq/id13_2024-09-27_10-31-35.4mse"]
  else if String.eqb pattern "data/dup/*.4mse" then
    ["data/dup/id7_2024-09-27_10-31-34.4mse";
     "data/dup/id5_2024-09-27_10-31-32.4mse";
     "data/dup/id5_2024-09-27_10-31-33.4mse"]
  else [].

Definition seq_records : list (FileRecord Z) :=
  [record_of [100; 101; 102];
   record_of [110; 111];
   record_of [120; 121; 122; 123];
   record_of [130];
   record_of [140; 141]].

Definition dup_records : list (FileRecord Z) :=
  [record_of [50; 51]; record_of [52; 53; 54]; record_of [70]].

Definition Dataloader (directory : string) : result (list (FileRecord Z)) :=
  if String.eqb directory "data/seq" then Ok seq_records
  else if String.eqb directory "data/dup" then Ok dup_records
  else Ok [].

(** [AEIFDataset("data", "seq")] *)
Definition whole_seq : AEIFDataset Z :=
  {| sequence_id := "seq";
     _sequence_name := "seq";
     _aeif_sequence_dir := "data/seq";
     _start_file := 0;
     _end_file := 5;
     scan_files := seq_records;
     _files_buffer := seq_records;
     _frames_per_file := [3; 2; 4; 1; 2] |}.

(** [AEIFDataset("data", "seq#11-13")] *)
Definition seq_11_13 : AEIFDataset Z :=
  {| sequence_id := "seq#11-13";
     _sequence_name := "seq";
     _aeif_sequence_dir := "data/seq";
     _start_file := 1;
     _end_file := 4;
     scan_files := [record_of [110; 111];
                    record_of [120; 121; 122; 123];
                    record_of [130]];
     _files_buffer := [record_of [110; 111];
                       record_of [120; 121; 122; 123];
                       record_of [130]];
     _frames_per_file := [2; 4; 1] |}.

(** [AEIFDataset("data", "none")]: a directory the recording does not
    have. *)
Definition no_seq : AEIFDataset Z :=
  {| sequence_id := "none";
     _sequence_name := "none";
     _aeif_sequence_dir := "data/none";
     _start_file := 0;
     _end_file := 0;
     scan_files := [];
     _files_buffer := [];
     _frames_per_file := [] |}.

(** Stand-ins for the payloads and for numpy, only to run the reading
    methods on the sample: the lidar and the image of a frame are its
    capture time, every field of a lidar is the one-entry array of it,
    [min] and [max] give back the array and [-] and [/] their left
    argument. *)
Definition top (frame : Z) : Z := frame.
Definition camera (frame : Z) : Z := frame.
Definition field_of (lidar : Z) (name : string) : list Z := [lidar].
Definition info_of (lidar : Z) : Z := lidar.
Definition lidar_with (info : Z) (points : list Z) : Z := info.
Definition projection (img lidar : Z) : Z * Z := (img, lidar).
Definition stack (arrays : list (list Z)) : list Z := List.concat arrays.
Definition whole (a : list Z) : result (list Z) := Ok a.
Definition left_arg (a b : list Z) : list Z := a.


End Sample.

Unset Implicit Arguments.

(** * Properties *)

(** ** The Python helpers on examples *)

Example split_ex1 : split "#" "seq#11-13" = ["seq"; "11-13"].
Proof. reflexivity. Qed.
Example split_ex2 : split "#" "seq" = ["seq"].
Proof. reflexivity. Qed.
Example split_ex3 : split "-" "-1-3" = [""; "1"; "3"].
Proof. reflexivity. Qed.
Example int_ex1 : int "11" = Ok 11.
Proof. reflexivity. Qed.
Example int_ex2 : int " -1_000 " = Ok (-1000).
Proof. reflexivity. Qed.
Example int_ex3 : int "a" = Raise ValueError.
Proof. reflexivity. Qed.
Example int_ex4 : int "" = Raise ValueError.
Proof. reflexivity. Qed.
Example int_ex5 : int "1__0" = Raise ValueError.
Proof. reflexivity. Qed.
Example join_ex : path_join "data" "seq" = "data/seq".
Proof. reflexivity. Qed.
Example basename_ex : basename "data/seq/id12_a.4mse" = "id12_a.4mse".
Proof. reflexivity. Qed.
Example sorted_ex :
  sorted ["id9_a"; "id10_a"; "id11_a"] = ["id10_a"; "id11_a"; "id9_a"].
Proof. reflexivity. Qed.
Example slice_ex : slice [10; 11; 12; 13; 14] 1 4 = [11; 12; 13].
Proof. reflexivity. Qed.

(** ** Sums and cumulative sums *)

Lemma fold_add_shift (l : list Z) (a : Z) :
  fold_left Z.add l a = a + fold_left Z.add l 0.
Proof.
  revert a; induction l as [|x l IH]; intros a; simpl.
  - lia.
  - rewrite (IH (a + x)), (IH x). lia.
Qed.

Lemma sum_nil : sum [] = 0.
Proof. reflexivity. Qed.

Lemma sum_cons (x : Z) (l : list Z) : sum (x :: l) = x + sum l.
Proof. unfold sum; simpl. apply fold_add_shift. Qed.

Lemma sum_app (l1 l2 : list Z) : sum (l1 ++ l2) = sum l1 + sum l2.
Proof.
  induction l1 as [|x l1 IH]; cbn [app].
  - rewrite sum_nil; lia.
  - rewrite !sum_cons, IH; lia.
Qed.

Lemma sum_nonneg (l : list Z) : Forall (fun n => 0 <= n) l -> 0 <= sum l.
Proof.
  induction 1 as [|x l Hx _ IH].
  - rewrite sum_nil; lia.
  - rewrite sum_cons; lia.
Qed.

Lemma frames_before_0 (frames : list Z) : frames_before frames 0 = 0.
Proof. reflexivity. Qed.

Lemma frames_before_cons (num : Z) (rest : list Z) (k : Z) :
  0 <= k ->
  frames_before (num :: rest) (k + 1) = num + frames_before rest k.
Proof.
  intros Hk. unfold frames_before.
  replace (Z.to_nat (k + 1)) with (S (Z.to_nat k)) by lia.
  simpl. apply sum_cons.
Qed.

Lemma frames_before_all (frames : list Z) :
  frames_before frames (len frames) = sum frames.
Proof.
  unfold frames_before, len. rewrite Nat2Z.id, firstn_all. reflexivity.
Qed.

(** ** The lookup loop *)

(** What the loop returns when it is entered at file [i0] with running
    total [t0] and the target is not yet covered by [t0]. *)
Lemma find_loop_covered (frames : list Z) :
  forall i0 t0 target,
    t0 <= target < t0 + sum frames ->
    exists k,
      0 <= k < len frames /\
      find_loop frames i0 t0 target
        = Ok (i0 + k, target - (t0 + frames_before frames k)) /\
      target < t0 + frames_before frames (k + 1) /\
      (forall j, 0 <= j < k -> t0 + frames_before frames (j + 1) <= target).
Proof.
  induction frames as [|num rest IH]; intros i0 t0 target [Hlo Hhi].
  - rewrite sum_nil in Hhi. lia.
  - rewrite sum_cons in Hhi. cbn [find_loop].
    destruct (target <? t0 + num) eqn:Hcmp.
    + apply Z.ltb_lt in Hcmp. exists 0.
      split; [|split; [|split]].
      * unfold len; cbn [List.length]; lia.
      * rewrite frames_before_0. f_equal. f_equal; lia.
      * rewrite (frames_before_cons num rest 0), frames_before_0 by lia. lia.
      * intros j Hj; lia.
    + apply Z.ltb_ge in Hcmp.
      destruct (IH (i0 + 1) (t0 + num) target) as (k & Hk & Hfind & Hex & Hmin);
        [lia|].
      exists (k + 1).
      split; [|split; [|split]].
      * unfold len in *; cbn [List.length]; lia.
      * rewrite Hfind, frames_before_cons by lia. f_equal. f_equal; lia.
      * rewrite frames_before_cons by lia. lia.
      * intros j Hj.
        destruct (Z.eq_dec j 0) as [->|Hne].
        -- rewrite (frames_before_cons num rest 0), frames_before_0 by lia. lia.
        -- replace (j + 1) with ((j - 1 + 1) + 1) by lia.
           rewrite frames_before_cons by lia.
           specialize (Hmin (j - 1)). lia.
Qed.

(** Past the last frame the loop runs off the table. *)
Lemma find_loop_past_end (frames : list Z) :
  forall i0 t0 target,
    Forall (fun n => 0 <= n) frames ->
    t0 + sum frames <= target ->
    find_loop frames i0 t0 target = Raise ValueError.
Proof.
  induction frames as [|num rest IH]; intros i0 t0 target Hpos Hge.
  - reflexivity.
  - inversion Hpos as [|? ? Hnum Hrest]; subst.
    rewrite sum_cons in Hge. simpl.
    pose proof (sum_nonneg rest Hrest) as Hs.
    destruct (target <? t0 + num) eqn:Hcmp.
    + apply Z.ltb_lt in Hcmp. lia.
    + apply IH; [assumption | lia].
Qed.

(** Below zero the first file answers, with the target as local index. *)
Lemma find_loop_below_zero (num : Z) (rest : list Z) (target : Z) :
  0 <= num -> target < 0 ->
  find_loop (num :: rest) 0 0 target = Ok (0, target).
Proof.
  intros Hnum Hneg. simpl.
  destruct (target <? num) eqn:Hcmp.
  - f_equal. f_equal. lia.
  - apply Z.ltb_ge in Hcmp. lia.
Qed.

(** ** The frame index *)

Section FrameIndex.

Variable Frame : Type.
Variable self : AEIFDataset Frame.

(** C4.  For a target in [0, sum(frames_per_file)) the lookup returns the
    first file whose cumulative frame count exceeds the target, with the
    target minus the frames of all files before it as local index. *)
Theorem find_file_and_frame_owner (target : Z) :
  0 <= target < sum (_frames_per_file self) ->
  exists file_idx frame_idx,
    _find_file_and_frame self target = Ok (file_idx, frame_idx) /\
    0 <= file_idx < len (_frames_per_file self) /\
    target < frames_before (_frames_per_file self) (file_idx + 1) /\
    (forall j, 0 <= j < file_idx ->
               frames_before (_frames_per_file self) (j + 1) <= target) /\
    frame_idx = target - frames_before (_frames_per_file self) file_idx.
Proof.
  intros Hrange.
  destruct (find_loop_covered (_frames_per_file self) 0 0 target)
    as (k & Hk & Hfind & Hex & Hmin); [lia|].
  exists k, (target - frames_before (_frames_per_file self) k).
  unfold _find_file_and_frame. rewrite Hfind.
  split; [reflexivity|].
  split; [exact Hk|].
  split; [lia|].
  split; [|reflexivity].
  intros j Hj. specialize (Hmin j Hj). lia.
Qed.

(** C6.  Of two valid global indices the smaller one is looked up to the
    pair that comes first, by file and then by frame. *)
Theorem find_file_and_frame_monotone (i j : Z) :
  0 <= i -> i < j -> j < __len__ self ->
  exists p q,
    _find_file_and_frame self i = Ok p /\
    _find_file_and_frame self j = Ok q /\
    lex_le p q.
Proof.
  intros Hi Hij Hj. unfold __len__ in Hj. unfold _find_file_and_frame.
  destruct (find_loop_covered (_frames_per_file self) 0 0 i)
    as (fi & Bi & Efi & Xi & Mi); [lia|].
  destruct (find_loop_covered (_frames_per_file self) 0 0 j)
    as (fj & Bj & Efj & Xj & Mj); [lia|].
  rewrite Efi, Efj. eexists _, _.
  split; [reflexivity|]. split; [reflexivity|].
  unfold lex_le; cbn [fst snd].
  destruct (Z_lt_ge_dec fj fi) as [Hlt|Hge].
  - specialize (Mi fj). lia.
  - destruct (Z.eq_dec fi fj) as [Heq|Hne].
    + right. subst fj. lia.
    + left. lia.
Qed.

End FrameIndex.

Lemma find_file_and_frame_owner_witness :
  exists file_idx frame_idx,
    _find_file_and_frame Sample.whole_seq 5 = Ok (file_idx, frame_idx) /\
    0 <= file_idx < len (_frames_per_file Sample.whole_seq) /\
    5 < frames_before (_frames_per_file Sample.whole_seq) (file_idx + 1) /\
    (forall j,
        0 <= j < file_idx ->
        frames_before (_frames_per_file Sample.whole_seq) (j + 1) <= 5) /\
    frame_idx = 5 - frames_before (_frames_per_file Sample.whole_seq) file_idx.
Proof.
  apply (find_file_and_frame_owner Z Sample.whole_seq 5).
  vm_compute. split; [discriminate | reflexivity].
Defined.

Lemma find_file_and_frame_monotone_witness :
  exists p q,
    _find_file_and_frame Sample.whole_seq 4 = Ok p /\
    _find_file_and_frame Sample.whole_seq 5 = Ok q /\
    lex_le p q.
Proof.
  apply (find_file_and_frame_monotone Z Sample.whole_seq 4 5).
  - lia.
  - lia.
  - vm_compute. reflexivity.
Defined.

Example lookup_4 : _find_file_and_frame Sample.whole_seq 4 = Ok (1, 1).
Proof. reflexivity. Qed.
Example lookup_5 : _find_file_and_frame Sample.whole_seq 5 = Ok (2, 0).
Proof. reflexivity. Qed.
Example lookup_12 : _find_file_and_frame Sample.whole_seq 12 = Raise ValueError.
Proof. reflexivity. Qed.

(** ** Construction *)

Lemma fold_append_map {A B : Type} (f : A -> B) (l : list A) (acc : list B) :
  fold_left (fun acc x => acc ++ [f x]) l acc = acc ++ map f l.
Proof.
  revert acc; induction l as [|x l IH]; intros acc; cbn [fold_left map].
  - now rewrite app_nil_r.
  - rewrite IH, <- app_assoc. reflexivity.
Qed.

Section Construction.

Variables Frame ProjImg : Type.
Variable glob : string -> list string.
Variable Dataloader : string -> result (list (FileRecord Frame)).

Lemma create_buffer_copies (files : list (FileRecord Frame)) :
  _create_buffer files = files.
Proof.
  unfold _create_buffer.
  rewrite (fold_append_map (fun r => r)), map_id. reflexivity.
Qed.

Lemma get_num_frames_map (buffer : list (FileRecord Frame)) :
  _get_num_frames buffer = map (@num_frames Frame) buffer.
Proof.
  unfold _get_num_frames. now rewrite fold_append_map.
Qed.

(** What a finished construction has established. *)
Lemma init_state (data_dir sequence : string) (out : list (event Frame ProjImg))
    (self : AEIFDataset Frame) :
  __init__ ProjImg glob Dataloader data_dir sequence = (out, Ok self) ->
  exists records,
    Dataloader (_aeif_sequence_dir self) = Ok records /\
    _aeif_sequence_dir self = path_join data_dir (_sequence_name self) /\
    scan_files self = slice records (_start_file self) (_end_file self) /\
    _files_buffer self = scan_files self /\
    _frames_per_file self = map (@num_frames Frame) (_files_buffer self).
Proof.
  unfold __init__, lift, emit, mret.
  destruct (parse_sequence sequence) as [[[name s] e]|[]]; cbn [mbind];
    try discriminate.
  all: match goal with
       | |- context [_filter_file_range glob ?d ?s ?e] =>
           destruct (_filter_file_range glob d s e) as [[start_file end_file]|];
           cbn [mbind]; [|discriminate];
           destruct (Dataloader d) as [records|] eqn:Hload;
           cbn [mbind]; [|discriminate]
       end.
  all: intros H; injection H as _ <-; cbn;
       exists records; rewrite create_buffer_copies, get_num_frames_map;
       repeat split; assumption.
Qed.

(** C5.  The length of a constructed dataset is the sum of [num_frames]
    over its buffered file records. *)
Theorem len_is_sum_of_num_frames (data_dir sequence : string)
    (out : list (event Frame ProjImg)) (self : AEIFDataset Frame) :
  __init__ ProjImg glob Dataloader data_dir sequence = (out, Ok self) ->
  __len__ self = sum (map (@num_frames Frame) (_files_buffer self)) /\
  len (_frames_per_file self) = len (_files_buffer self).
Proof.
  intros Hinit.
  destruct (init_state _ _ _ _ Hinit) as (records & _ & _ & _ & _ & Hframes).
  unfold __len__. rewrite Hframes. split; [reflexivity|].
  unfold len. now rewrite length_map.
Qed.

End Construction.

Lemma whole_seq_constructed :
  __init__ unit Sample.glob Sample.Dataloader "data" "seq"
  = ([Print Z unit no_maneuver_message], Ok Sample.whole_seq).
Proof. vm_compute. reflexivity. Qed.

Lemma len_is_sum_of_num_frames_witness :
  __len__ Sample.whole_seq
    = sum (map (@num_frames Z) (_files_buffer Sample.whole_seq)) /\
  len (_frames_per_file Sample.whole_seq)
    = len (_files_buffer Sample.whole_seq).
Proof.
  apply (len_is_sum_of_num_frames Z unit Sample.glob Sample.Dataloader
           "data" "seq" [Print Z unit no_maneuver_message] Sample.whole_seq).
  vm_compute. reflexivity.
Defined.

(** ** Specifiers *)

Example parse_range : parse_sequence "seq#11-13" = Ok ("seq", 11, 13).
Proof. reflexivity. Qed.
Example parse_plain : parse_sequence "seq" = Raise ValueError.
Proof. reflexivity. Qed.
Example parse_single_id : parse_sequence "seq#11" = Raise ValueError.
Proof. reflexivity. Qed.
Example parse_letters : parse_sequence "seq#a-b" = Raise ValueError.
Proof. reflexivity. Qed.
Example parse_negative_start : parse_sequence "seq#-1-3" = Raise ValueError.
Proof. reflexivity. Qed.


Section Fallback.

Variables Frame ProjImg : Type.
Variable glob : string -> list string.
Variable Dataloader : string -> result (list (FileRecord Frame)).

(** When the specifier does not parse, the notice is printed and the
    whole specifier, range part included, becomes the sequence name. *)
Lemma init_fallback (data_dir sequence : string)
    (out : list (event Frame ProjImg)) (self : AEIFDataset Frame) :
  parse_sequence sequence = Raise ValueError ->
  __init__ ProjImg glob Dataloader data_dir sequence = (out, Ok self) ->
  out = [Print Frame ProjImg no_maneuver_message] /\
  _sequence_name self = sequence /\
  _aeif_sequence_dir self = path_join data_dir sequence /\
  _start_file self = 0 /\
  _end_file self
    = len (sorted (glob (path_join (path_join data_dir sequence) "*.4mse"))).
Proof.
  intros Hparse. unfold __init__, lift, emit, mret. rewrite Hparse.
  cbn [mbind app _filter_file_range].
  destruct (Dataloader (path_join data_dir sequence)) as [records|];
    cbn [mbind]; [|discriminate].
  intros H. injection H as <- <-. cbn. repeat split.
Qed.

End Fallback.

(** C2.  On the sample, the specifier "seq#11" does not resolve the files
    "seq" resolves: the directory looked at is data/seq#11, which holds
    nothing, where "seq" gives the five files of data/seq. *)
Theorem malformed_range_changes_directory :
  exists broken plain,
    __init__ unit Sample.glob Sample.Dataloader "data" "seq#11"
      = ([Print Z unit no_maneuver_message], Ok broken) /\
    __init__ unit Sample.glob Sample.Dataloader "data" "seq"
      = ([Print Z unit no_maneuver_message], Ok plain) /\
    _aeif_sequence_dir broken = "data/seq#11" /\
    _aeif_sequence_dir plain = "data/seq" /\
    (_start_file broken, _end_file broken) = (0, 0) /\
    (_start_file plain, _end_file plain) = (0, 5) /\
    scan_files broken = [] /\
    scan_files plain = Sample.seq_records.
Proof.
  eexists _, _.
  split; [vm_compute; reflexivity|].
  split; [vm_compute; reflexivity|].
  repeat split.
Qed.

(** ** Range resolution *)

(** *** The scan on files whose IDs are known *)

(** Files that carry neither the end ID nor, while no start has been
    recorded, the start ID are passed over. *)
Lemma filter_loop_skip (files : list string) (ids : list Z) :
  has_ids files ids ->
  forall later idx start_id end_id start_file end_file,
    ~ In end_id ids ->
    start_file <> 0 \/ ~ In start_id ids ->
    filter_loop (files ++ later) idx start_id end_id start_file end_file
    = filter_loop later (idx + len files) start_id end_id start_file end_file.
Proof.
  induction 1 as [|file_path id files ids Hid _ IH];
    intros later idx start_id end_id start_file end_file Hend Hstart.
  - cbn [app]. unfold len; cbn [List.length]. f_equal; lia.
  - cbn [app filter_loop]. rewrite Hid. cbn [bind].
    assert (Hne : (id =? end_id) = false).
    { apply Z.eqb_neq. intros ->. apply Hend. now left. }
    assert (Hkeep : (id =? start_id) && (start_file =? 0) = false).
    { destruct Hstart as [Hset|Hnot].
      - apply Z.eqb_neq in Hset. rewrite Hset. apply andb_false_r.
      - assert ((id =? start_id) = false) as ->; [|reflexivity].
        apply Z.eqb_neq. intros ->. apply Hnot. now left. }
    rewrite Hkeep, Hne, IH.
    + f_equal. unfold len; cbn [List.length]. lia.
    + intros Hin. apply Hend. now right.
    + destruct Hstart as [Hset|Hnot]; [now left|].
      right. intros Hin. apply Hnot. now right.
Qed.


(** One ID as start and end: the range is its first file alone. *)
Lemma filter_loop_single (before after : list string) (ids_before : list Z)
    (only_file : string) (id end_file : Z) :
  has_ids before ids_before ->
  file_id_of only_file = Ok id ->
  ~ In id ids_before ->
  filter_loop (before ++ only_file :: after) 0 id id 0 end_file
  = Ok (len before, len before + 1).
Proof.
  intros Hb Hid Hnot.
  rewrite (filter_loop_skip _ _ Hb) by (assumption || now right).
  cbn [filter_loop]. rewrite Hid. cbn [bind].
  rewrite Z.eqb_refl. cbn [andb Z.eqb]. f_equal.
Qed.

(** Without a file of the end ID the scan reaches the end of the list and
    the range runs to the last file. *)
Lemma filter_loop_no_end (files : list string) (ids : list Z)
    (start_id end_id end_file : Z) :
  has_ids files ids ->
  ~ In start_id ids -> ~ In end_id ids ->
  filter_loop files 0 start_id end_id 0 end_file = Ok (0, end_file).
Proof.
  intros Hids Hs He.
  rewrite <- (app_nil_r files).
  rewrite (filter_loop_skip _ _ Hids) by (assumption || now right).
  reflexivity.
Qed.

Example sample_ids :
  map file_id_of (sorted (Sample.glob "data/seq/*.4mse"))
  = [Ok 10; Ok 11; Ok 12; Ok 13; Ok 14].
Proof. reflexivity. Qed.

(** The example of the specification: IDs 10 to 14 and "seq#11-13". *)
Example range_11_13 :
  exists self,
    __init__ unit Sample.glob Sample.Dataloader "data" "seq#11-13"
      = ([], Ok self) /\
    (_start_file self, _end_file self) = (1, 4) /\
    _files_buffer self
      = [Sample.record_of [110; 111];
         Sample.record_of [120; 121; 122; 123];
         Sample.record_of [130]].
Proof.
  eexists. split; [vm_compute; reflexivity|]. split; reflexivity.
Qed.

Example no_range_all_files :
  _filter_file_range Sample.glob "data/seq" None None = Ok (0, 5).
Proof. reflexivity. Qed.

(** C3.  In data/dup the sorted files carry the IDs 5, 5, 7.  For the
    range 5-7 the first file with ID 5 is the one at index 0, yet the
    resolved start is index 1: the second file with ID 5 replaces it, and
    the slice loses the first file. *)
Theorem repeated_start_id_takes_second_match :
  map file_id_of (sorted (Sample.glob "data/dup/*.4mse"))
    = [Ok 5; Ok 5; Ok 7] /\
  _filter_file_range Sample.glob "data/dup" (Some 5) (Some 7) = Ok (1, 3) /\
  exists self,
    __init__ unit Sample.glob Sample.Dataloader "data" "dup#5-7"
      = ([], Ok self) /\
    _files_buffer self = [Sample.record_of [52; 53; 54]; Sample.record_of [70]].
Proof.
  split; [reflexivity|]. split; [reflexivity|].
  eexists. split; [vm_compute; reflexivity|]. reflexivity.
Qed.

(** ** Indices outside the dataset *)

Section ReadPath.

Variables Frame Lidar ProjImg Array : Type.
Variable lidars_TOP : Frame -> Lidar.
Variable field : Lidar -> string -> Array.
Variable np_stack : list Array -> Array.
Variable np_min np_max : Array -> result Array.
Variable np_sub np_div : Array -> Array -> Array.

(** At and past [len(dataset)] the lookup raises, and so does
    [dataset[idx]], before any record is touched. *)
Lemma find_file_and_frame_past_end (self : AEIFDataset Frame) (target : Z) :
  Forall (fun n => 0 <= n) (_frames_per_file self) ->
  __len__ self <= target ->
  _find_file_and_frame self target = Raise ValueError /\
  __getitem__ ProjImg lidars_TOP field np_stack np_min np_max np_sub np_div
              self target
  = ([], Raise ValueError).
Proof.
  intros Hpos Hge.
  assert (Hfind : _find_file_and_frame self target = Raise ValueError).
  { apply find_loop_past_end; [assumption | unfold __len__ in Hge; lia]. }
  split; [exact Hfind|].
  unfold __getitem__, lift. now rewrite Hfind.
Qed.

(** Below zero nothing is raised as soon as there is a first file: the
    lookup answers with file 0 and the target itself as local index. *)
Lemma find_file_and_frame_below_zero (self : AEIFDataset Frame)
    (num : Z) (rest : list Z) (target : Z) :
  _frames_per_file self = num :: rest ->
  0 <= num -> target < 0 ->
  _find_file_and_frame self target = Ok (0, target).
Proof.
  intros Hframes Hnum Hneg. unfold _find_file_and_frame.
  rewrite Hframes. now apply find_loop_below_zero.
Qed.

(** Once the lookup has answered, [dataset[idx]] goes on to ask the file
    for the frame. *)
Lemma getitem_reads_frame (self : AEIFDataset Frame)
    (idx file_idx frame_idx : Z) (file : FileRecord Frame) :
  _find_file_and_frame self idx = Ok (file_idx, frame_idx) ->
  index (_files_buffer self) file_idx = Ok file ->
  exists outcome,
    __getitem__ ProjImg lidars_TOP field np_stack np_min np_max np_sub np_div
                self idx
    = ([GetFrame ProjImg file frame_idx], outcome).
Proof.
  intros Hfind Hfile.
  unfold __getitem__, scans, read_point_cloud, read_frame, lift.
  rewrite Hfind. cbn [mbind app]. rewrite Hfile. cbn [mbind app].
  destruct (getitem file frame_idx) as [frame|e]; [|eexists; reflexivity].
  destruct (_get_timestamps _ _ _ _ _ _) as [ts|e];
    cbn [mbind mret app]; eexists; reflexivity.
Qed.

End ReadPath.

Section SampleReadPath.

Variables Lidar ProjImg Array : Type.
Variable lidars_TOP : Z -> Lidar.
Variable field : Lidar -> string -> Array.
Variable np_stack : list Array -> Array.
Variable np_min np_max : Array -> result Array.
Variable np_sub np_div : Array -> Array -> Array.

(** C1.  On the five-file sample, [dataset[-1]] is not refused: the
    lookup returns file 0 with local index -1, and the first record is
    asked for its frame -1. *)
Theorem getitem_minus_one_is_looked_up :
  __len__ Sample.whole_seq = 12 /\
  _find_file_and_frame Sample.whole_seq (-1) = Ok (0, -1) /\
  exists outcome,
    __getitem__ ProjImg lidars_TOP field np_stack np_min np_max np_sub np_div
                Sample.whole_seq (-1)
    = ([GetFrame ProjImg (Sample.record_of [100; 101; 102]) (-1)], outcome).
Proof.
  split; [reflexivity|]. split; [reflexivity|].
  apply getitem_reads_frame with (file_idx := 0); reflexivity.
Qed.

End SampleReadPath.

(** ** The timestamps of the whole sequence *)

Lemma index_nonneg {A : Type} (l : list A) (i : Z) :
  0 <= i ->
  index l i = match nth_error l (Z.to_nat i) with
              | Some a => Ok a
              | None => Raise IndexError
              end.
Proof.
  intros Hi. unfold index.
  destruct (i <? 0) eqn:Hneg; [apply Z.ltb_lt in Hneg; lia|].
  now rewrite Hneg.
Qed.



Section Timestamps.

Variables Frame Scalar : Type.
Variable frame_timestamp : Frame -> Scalar.





Variable ProjImg : Type.
Variable glob : string -> list string.
Variable Dataloader : string -> result (list (FileRecord Frame)).


End Timestamps.


Example sample_timestamps :
  get_frames_timestamps (fun t : Z => t) Sample.whole_seq
  = [[100]; [101]; [102]; [110]; [111]; [120]; [121]; [122]; [123]; [130];
     [140]; [141]].
Proof. reflexivity. Qed.

(** ** Projection *)

Section Projection.

Variables Frame Lidar Image Info ProjImg Array : Type.
Variable lidars_TOP : Frame -> Lidar.
Variable cameras_STEREO_LEFT : Frame -> Image.
Variable lidar_info : Lidar -> Info.
Variable mk_Lidar : Info -> Array -> Lidar.
Variable get_projection_img : Image -> Lidar -> ProjImg.

(** C10.  When a global index is looked up to the last local frame of a
    buffered file, [project_points] first asks that file for the frame at
    local index [frame_idx + 1]; this is the file's [num_frames], outside
    the range of local indices the file has frames for. *)
Theorem project_points_reads_past_last_frame (self : AEIFDataset Frame)
    (idx : Z) (points : option Array) (file_idx frame_idx : Z)
    (file : FileRecord Frame) :
  _find_file_and_frame self idx = Ok (file_idx, frame_idx) ->
  index (_files_buffer self) file_idx = Ok file ->
  frame_idx = num_frames file - 1 ->
  (exists later outcome,
      project_points lidars_TOP cameras_STEREO_LEFT lidar_info mk_Lidar
                     get_projection_img self idx points
      = (GetFrame ProjImg file (frame_idx + 1) :: later, outcome)) /\
  frame_idx + 1 = num_frames file /\
  ~ in_frame_range file (frame_idx + 1).
Proof.
  intros Hfind Hfile Hlast.
  split; [|split].
  - unfold project_points, lift, read_frame. rewrite Hfind. cbn [mbind app].
    rewrite Hfile. cbn [mbind app].
    destruct (getitem file (frame_idx + 1)) as [camera_frame|e].
    + destruct (getitem file frame_idx) as [lidar_frame|e];
        cbn [mbind app emit]; eexists _, _; reflexivity.
    + eexists _, _; reflexivity.
  - lia.
  - unfold in_frame_range. lia.
Qed.

End Projection.

Lemma project_points_reads_past_last_frame_witness :
  (exists later outcome,
      project_points (fun t : Z => t) (fun t : Z => t) (fun t : Z => t)
                     (fun (info : Z) (pts : list Z) => info)
                     (fun (img lidar : Z) => (img, lidar))
                     Sample.whole_seq 4 None
      = (GetFrame (Z * Z) (Sample.record_of [110; 111]) (1 + 1) :: later,
         outcome)) /\
  1 + 1 = num_frames (Sample.record_of [110; 111]) /\
  ~ in_frame_range (Sample.record_of [110; 111]) (1 + 1).
Proof.
  apply (project_points_reads_past_last_frame Z Z Z Z (Z * Z) (list Z)
           (fun t => t) (fun t => t) (fun t => t) (fun info pts => info)
           (fun img lidar => (img, lidar))
           Sample.whole_seq 4 None 1 1 (Sample.record_of [110; 111])).
  - reflexivity.
  - reflexivity.
  - reflexivity.
Defined.

(** In the sample the frame asked for does not exist: the records answer
    like lists, and the call ends in an IndexError. *)
Example project_points_last_frame_sample :
  project_points (fun t : Z => t) (fun t : Z => t) (fun t : Z => t)
                 (fun (info : Z) (pts : list Z) => info)
                 (fun (img lidar : Z) => (img, lidar))
                 Sample.whole_seq 4 None
  = ([GetFrame (Z * Z) (Sample.record_of [110; 111]) 2], Raise IndexError).
Proof. reflexivity. Qed.

(** * Further properties *)

(** ** The frame index, both ways *)

Lemma frames_before_step (frames : list Z) (k : Z) :
  0 <= k < len frames ->
  exists num,
    nth_error frames (Z.to_nat k) = Some num /\
    frames_before frames (k + 1) = frames_before frames k + num.
Proof.
  revert k; induction frames as [|x rest IH]; intros k Hk.
  - unfold len in Hk; cbn [List.length] in Hk. lia.
  - destruct (Z.eq_dec k 0) as [->|Hne].
    + exists x. split; [reflexivity|].
      rewrite (frames_before_cons x rest 0), !frames_before_0 by lia. lia.
    + destruct (IH (k - 1)) as (num & Hnth & Hstep).
      { unfold len in *; cbn [List.length] in Hk. lia. }
      exists num. split.
      * replace (Z.to_nat k) with (S (Z.to_nat (k - 1))) by lia. exact Hnth.
      * replace (k + 1) with ((k - 1 + 1) + 1) by lia.
        rewrite frames_before_cons by lia. rewrite Hstep.
        replace k with ((k - 1) + 1) at 2 by lia.
        rewrite frames_before_cons by lia. lia.
Qed.

Lemma sum_firstn_mono (frames : list Z) :
  Forall (fun n => 0 <= n) frames ->
  forall n m : nat, (n <= m)%nat ->
  sum (firstn n frames) <= sum (firstn m frames).
Proof.
  induction 1 as [|x rest Hx _ IH]; intros n m Hnm.
  - rewrite !firstn_nil. lia.
  - destruct n as [|n].
    + cbn [firstn]. rewrite sum_nil.
      destruct m as [|m]; cbn [firstn]; [rewrite sum_nil; lia|].
      rewrite sum_cons. specialize (IH 0%nat m ltac:(lia)).
      cbn [firstn] in IH. rewrite sum_nil in IH. lia.
    + destruct m as [|m]; [lia|].
      cbn [firstn]. rewrite !sum_cons.
      specialize (IH n m ltac:(lia)). lia.
Qed.

Lemma frames_before_mono (frames : list Z) (a b : Z) :
  Forall (fun n => 0 <= n) frames ->
  0 <= a <= b ->
  frames_before frames a <= frames_before frames b.
Proof.
  intros Hpos Hab. unfold frames_before.
  apply sum_firstn_mono; [assumption | lia].
Qed.

Lemma frames_before_le_sum (frames : list Z) (k : Z) :
  Forall (fun n => 0 <= n) frames ->
  0 <= k ->
  frames_before frames k <= sum frames.
Proof.
  intros Hpos Hk.
  destruct (Z_le_gt_dec k (len frames)) as [Hle|Hgt].
  - rewrite <- (frames_before_all frames).
    apply frames_before_mono; [assumption | lia].
  - unfold frames_before. rewrite firstn_all2; [lia|].
    unfold len in Hgt. lia.
Qed.

Lemma index_of_nth {A : Type} (l : list A) (k : Z) (a : A) :
  0 <= k ->
  nth_error l (Z.to_nat k) = Some a ->
  index l k = Ok a.
Proof.
  intros Hk Hnth. rewrite index_nonneg by assumption. now rewrite Hnth.
Qed.

(** What the lookup returns for a target inside the dataset, with the
    count of the owning file. *)
Lemma find_loop_inside (frames : list Z) (target : Z) :
  0 <= target < sum frames ->
  exists k num,
    find_loop frames 0 0 target = Ok (k, target - frames_before frames k) /\
    0 <= k < len frames /\
    nth_error frames (Z.to_nat k) = Some num /\
    frames_before frames k <= target < frames_before frames k + num.
Proof.
  intros Hrange.
  destruct (find_loop_covered frames 0 0 target)
    as (k & Hk & Hfind & Hex & Hmin); [lia|].
  destruct (frames_before_step frames k Hk) as (num & Hnth & Hstep).
  exists k, num. rewrite Hfind.
  split; [f_equal; f_equal; lia|].
  split; [exact Hk|]. split; [exact Hnth|].
  split; [|lia].
  destruct (Z.eq_dec k 0) as [->|Hne].
  - rewrite frames_before_0. lia.
  - specialize (Hmin (k - 1)).
    replace (k - 1 + 1) with k in Hmin by lia. lia.
Qed.

Section FrameIndexBothWays.

Variable Frame : Type.
Variable self : AEIFDataset Frame.

(** X3.  For a valid global index the local frame index returned lies
    within the frame count of the file returned. *)
Theorem lookup_local_index_in_range (target file_idx frame_idx : Z) :
  0 <= target < __len__ self ->
  _find_file_and_frame self target = Ok (file_idx, frame_idx) ->
  exists num,
    index (_frames_per_file self) file_idx = Ok num /\
    0 <= frame_idx < num.
Proof.
  intros Hrange Hfind. unfold __len__ in Hrange.
  destruct (find_loop_inside (_frames_per_file self) target Hrange)
    as (k & num & Hk & Hbound & Hnth & Hin).
  unfold _find_file_and_frame in Hfind. rewrite Hk in Hfind.
  injection Hfind as <- <-.
  exists num. split; [apply index_of_nth; [lia | exact Hnth]|]. lia.
Qed.

(** X4.  Every frame of every file has its global index: with counts
    that are not negative, looking up the frames before file [k] plus a
    local index [r] of file [k] gives back [(k, r)]. *)
Theorem lookup_of_file_and_frame (k r num : Z) :
  Forall (fun n => 0 <= n) (_frames_per_file self) ->
  index (_frames_per_file self) k = Ok num ->
  0 <= k ->
  0 <= r < num ->
  _find_file_and_frame self (frames_before (_frames_per_file self) k + r)
  = Ok (k, r).
Proof.
  intros Hpos Hidx Hk Hr.
  set (frames := _frames_per_file self) in *.
  rewrite index_nonneg in Hidx by assumption.
  destruct (nth_error frames (Z.to_nat k)) as [num'|] eqn:Hnth;
    [|discriminate].
  injection Hidx as ->.
  assert (Hlen : 0 <= k < len frames).
  { split; [assumption|].
    assert (Z.to_nat k < List.length frames)%nat
      by (apply nth_error_Some; congruence).
    unfold len. lia. }
  destruct (frames_before_step frames k Hlen) as (num'' & Hnth' & Hstep).
  assert (num'' = num) as -> by congruence.
  pose proof (frames_before_mono frames 0 k Hpos ltac:(lia)) as Hlow.
  rewrite frames_before_0 in Hlow.
  pose proof (frames_before_le_sum frames (k + 1) Hpos ltac:(lia)) as Hhigh.
  destruct (find_loop_covered frames 0 0 (frames_before frames k + r))
    as (k' & Hk' & Hfind & Hex & Hmin); [lia|].
  unfold _find_file_and_frame. fold frames. rewrite Hfind.
  assert (k' = k) as ->.
  { destruct (Z_lt_ge_dec k' k) as [Hlt|Hge].
    - pose proof (frames_before_mono frames (k' + 1) k Hpos ltac:(lia)). lia.
    - destruct (Z.eq_dec k' k) as [|Hne]; [assumption|].
      specialize (Hmin k). lia. }
  f_equal. f_equal; lia.
Qed.

(** X5.  Two valid global indices that are looked up to the same
    (file, frame) pair are the same index. *)
Theorem lookup_injective (i j : Z) (p : Z * Z) :
  0 <= i < __len__ self ->
  0 <= j < __len__ self ->
  _find_file_and_frame self i = Ok p ->
  _find_file_and_frame self j = Ok p ->
  i = j.
Proof.
  intros Hi Hj Efi Efj. unfold __len__ in Hi, Hj.
  unfold _find_file_and_frame in Efi, Efj.
  destruct (find_loop_covered (_frames_per_file self) 0 0 i)
    as (ki & _ & Hfi & _); [lia|].
  destruct (find_loop_covered (_frames_per_file self) 0 0 j)
    as (kj & _ & Hfj & _); [lia|].
  rewrite Hfi in Efi. rewrite Hfj in Efj.
  injection Efi as <-. injection Efj as Hk Hr.
  assert (kj = ki) as -> by lia. lia.
Qed.

End FrameIndexBothWays.

Lemma lookup_local_index_in_range_witness :
  exists num,
    index (_frames_per_file Sample.whole_seq) 2 = Ok num /\ 0 <= 0 < num.
Proof.
  apply (lookup_local_index_in_range Z Sample.whole_seq 5 2 0).
  - vm_compute. split; [discriminate | reflexivity].
  - reflexivity.
Defined.

Lemma lookup_of_file_and_frame_witness :
  _find_file_and_frame Sample.whole_seq
    (frames_before (_frames_per_file Sample.whole_seq) 2 + 3)
  = Ok (2, 3).
Proof.
  apply (lookup_of_file_and_frame Z Sample.whole_seq 2 3 4).
  - repeat constructor; discriminate.
  - reflexivity.
  - lia.
  - lia.
Defined.

Lemma lookup_injective_witness : 5 = 5.
Proof.
  apply (lookup_injective Z Sample.whole_seq 5 5 (2, 0)).
  - vm_compute. split; [discriminate | reflexivity].
  - vm_compute. split; [discriminate | reflexivity].
  - reflexivity.
  - reflexivity.
Defined.

(** ** What the public methods ask of the records *)

Lemma index_map_inv {A B : Type} (f : A -> B) (l : list A) (k : Z) (b : B) :
  index (map f l) k = Ok b ->
  exists a, index l k = Ok a /\ f a = b.
Proof.
  unfold index, len. rewrite length_map.
  destruct (_ <? 0); [discriminate|].
  rewrite nth_error_map.
  destruct (nth_error l _) as [a|]; [|discriminate].
  cbn [option_map]. intros H. injection H as <-. now exists a.
Qed.

Section PublicMethods.

Variables Frame Lidar Image Info ProjImg Array : Type.
Variable lidars_TOP : Frame -> Lidar.
Variable cameras_STEREO_LEFT : Frame -> Image.
Variable field : Lidar -> string -> Array.
Variable lidar_info : Lidar -> Info.
Variable mk_Lidar : Info -> Array -> Lidar.
Variable get_projection_img : Image -> Lidar -> ProjImg.
Variable np_stack : list Array -> Array.
Variable np_min np_max : Array -> result Array.
Variable np_sub np_div : Array -> Array -> Array.
Variable glob : string -> list string.
Variable Dataloader : string -> result (list (FileRecord Frame)).

(** A valid global index of a constructed dataset names a buffered file
    and one of the local indices that file has frames for. *)
Lemma lookup_names_buffered_frame (data_dir sequence : string)
    (out : list (event Frame ProjImg)) (self : AEIFDataset Frame) (idx : Z) :
  __init__ ProjImg glob Dataloader data_dir sequence = (out, Ok self) ->
  0 <= idx < __len__ self ->
  exists file_idx frame_idx file,
    _find_file_and_frame self idx = Ok (file_idx, frame_idx) /\
    index (_files_buffer self) file_idx = Ok file /\
    in_frame_range file frame_idx.
Proof.
  intros Hinit Hidx. unfold __len__ in Hidx.
  destruct (init_state _ _ _ _ _ _ _ _ Hinit)
    as (records & _ & _ & _ & _ & Hframes).
  destruct (find_loop_inside (_frames_per_file self) idx Hidx)
    as (k & num & Hfind & Hk & Hnth & Hin).
  apply index_of_nth in Hnth; [|lia].
  rewrite Hframes in Hnth.
  destruct (index_map_inv _ _ _ _ Hnth) as (file & Hfile & Hnum).
  exists k, (idx - frames_before (_frames_per_file self) k), file.
  split; [exact Hfind|]. split; [exact Hfile|].
  unfold in_frame_range. rewrite Hnum. lia.
Qed.

(** X6.  [dataset[idx]] for a valid index of a constructed dataset asks
    one buffered record for one frame, at a local index within that
    record's [num_frames]; nothing else is read. *)
Theorem getitem_valid_reads_one_frame (data_dir sequence : string)
    (out : list (event Frame ProjImg)) (self : AEIFDataset Frame) (idx : Z) :
  __init__ ProjImg glob Dataloader data_dir sequence = (out, Ok self) ->
  0 <= idx < __len__ self ->
  exists file_idx frame_idx file outcome,
    _find_file_and_frame self idx = Ok (file_idx, frame_idx) /\
    index (_files_buffer self) file_idx = Ok file /\
    in_frame_range file frame_idx /\
    __getitem__ ProjImg lidars_TOP field np_stack np_min np_max np_sub np_div
                self idx
    = ([GetFrame ProjImg file frame_idx], outcome).
Proof.
  intros Hinit Hidx.
  destruct (lookup_names_buffered_frame _ _ _ _ _ Hinit Hidx)
    as (file_idx & frame_idx & file & Hfind & Hfile & Hin).
  destruct (getitem_reads_frame _ _ ProjImg _ lidars_TOP field np_stack
              np_min np_max np_sub np_div self idx file_idx frame_idx file
              Hfind Hfile) as (outcome & Hget).
  exists file_idx, frame_idx, file, outcome. auto.
Qed.

(** X1.  From [len(dataset)] on, with counts that are not negative,
    [dataset[idx]] and [project_points] both end in the ValueError of the
    lookup: no record is asked for a frame and no image is saved. *)
Theorem index_past_end_rejected (self : AEIFDataset Frame) (idx : Z)
    (points : option Array) :
  Forall (fun n => 0 <= n) (_frames_per_file self) ->
  __len__ self <= idx ->
  __getitem__ ProjImg lidars_TOP field np_stack np_min np_max np_sub np_div
              self idx
  = ([], Raise ValueError) /\
  project_points lidars_TOP cameras_STEREO_LEFT lidar_info mk_Lidar
                 get_projection_img self idx points
  = ([], Raise ValueError).
Proof.
  intros Hpos Hge.
  assert (Hfind : _find_file_and_frame self idx = Raise ValueError).
  { apply find_loop_past_end; [assumption | unfold __len__ in Hge; lia]. }
  unfold __getitem__, project_points, lift. now rewrite Hfind.
Qed.

(** X2.  Below zero the lookup does not raise once there is a first file
    with a count that is not negative: it answers file 0 with the index
    itself as local index, and [dataset[idx]] asks the first buffered
    record for that frame. *)
Theorem negative_index_reaches_first_file (self : AEIFDataset Frame)
    (idx num : Z) (rest : list Z) (file : FileRecord Frame) :
  _frames_per_file self = num :: rest ->
  index (_files_buffer self) 0 = Ok file ->
  0 <= num ->
  idx < 0 ->
  _find_file_and_frame self idx = Ok (0, idx) /\
  exists outcome,
    __getitem__ ProjImg lidars_TOP field np_stack np_min np_max np_sub np_div
                self idx
    = ([GetFrame ProjImg file idx], outcome).
Proof.
  intros Hframes Hfile Hnum Hneg.
  assert (Hfind : _find_file_and_frame self idx = Ok (0, idx)).
  { unfold _find_file_and_frame. rewrite Hframes.
    now apply find_loop_below_zero. }
  split; [exact Hfind|].
  exact (getitem_reads_frame _ _ ProjImg _ lidars_TOP field np_stack
           np_min np_max np_sub np_div self idx 0 idx file Hfind Hfile).
Qed.

(** X7.  When [project_points] returns, it has read the frame after the
    requested one for the camera image and the requested one for the
    lidar, in this order and from the same file, and has saved one image
    named after the global index: the projection of the lidar of frame
    [frame_idx] (or of the points handed in, with that lidar's info) onto
    the image of frame [frame_idx + 1]. *)
Theorem project_points_pairs_next_camera (self : AEIFDataset Frame) (idx : Z)
    (points : option Array) (events : list (event Frame ProjImg)) :
  project_points lidars_TOP cameras_STEREO_LEFT lidar_info mk_Lidar
                 get_projection_img self idx points
  = (events, Ok tt) ->
  exists file_idx frame_idx file camera_frame lidar_frame,
    _find_file_and_frame self idx = Ok (file_idx, frame_idx) /\
    index (_files_buffer self) file_idx = Ok file /\
    getitem file (frame_idx + 1) = Ok camera_frame /\
    getitem file frame_idx = Ok lidar_frame /\
    events
    = [GetFrame ProjImg file (frame_idx + 1);
       GetFrame ProjImg file frame_idx;
       Save Frame (png_name idx)
            (get_projection_img
               (cameras_STEREO_LEFT camera_frame)
               match points with
               | None => lidars_TOP lidar_frame
               | Some pts => mk_Lidar (lidar_info (lidars_TOP lidar_frame)) pts
               end)].
Proof.
  unfold project_points, lift, read_frame, emit.
  destruct (_find_file_and_frame self idx) as [[file_idx frame_idx]|e]
    eqn:Hfind;
    cbn [mbind app]; [|discriminate].
  destruct (index (_files_buffer self) file_idx) as [file|e] eqn:Hfile;
    cbn [mbind app]; [|discriminate].
  destruct (getitem file (frame_idx + 1)) as [camera_frame|e] eqn:Hcam;
    cbn [mbind app]; [|discriminate].
  destruct (getitem file frame_idx) as [lidar_frame|e] eqn:Hlidar;
    cbn [mbind app]; [|discriminate].
  intros H. injection H as <-.
  exists file_idx, frame_idx, file, camera_frame, lidar_frame.
  repeat split; assumption || reflexivity.
Qed.

(** X8.  When [project_points] raises, no image has been saved. *)
Theorem project_points_failure_saves_nothing (self : AEIFDataset Frame)
    (idx : Z) (points : option Array) (events : list (event Frame ProjImg))
    (e : exn) :
  project_points lidars_TOP cameras_STEREO_LEFT lidar_info mk_Lidar
                 get_projection_img self idx points
  = (events, Raise e) ->
  saved events = [].
Proof.
  unfold project_points, lift, read_frame, emit.
  destruct (_find_file_and_frame self idx) as [[file_idx frame_idx]|e0];
    cbn [mbind app]; [|intros H; injection H as <- _; reflexivity].
  destruct (index (_files_buffer self) file_idx) as [file|e0];
    cbn [mbind app]; [|intros H; injection H as <- _; reflexivity].
  destruct (getitem file (frame_idx + 1)) as [camera_frame|e0];
    cbn [mbind app]; [|intros H; injection H as <- _; reflexivity].
  destruct (getitem file frame_idx) as [lidar_frame|e0];
    cbn [mbind app]; [|intros H; injection H as <- _; reflexivity].
  discriminate.
Qed.

(** X9.  On a frame that is not the last of its file, both reads of
    [project_points] stay within the file's [num_frames]. *)
Theorem project_points_inner_frame_in_range (data_dir sequence : string)
    (out : list (event Frame ProjImg)) (self : AEIFDataset Frame) (idx : Z)
    (points : option Array) (file_idx frame_idx : Z) (file : FileRecord Frame) :
  __init__ ProjImg glob Dataloader data_dir sequence = (out, Ok self) ->
  0 <= idx < __len__ self ->
  _find_file_and_frame self idx = Ok (file_idx, frame_idx) ->
  index (_files_buffer self) file_idx = Ok file ->
  frame_idx < num_frames file - 1 ->
  in_frame_range file frame_idx /\
  in_frame_range file (frame_idx + 1) /\
  exists later outcome,
    project_points lidars_TOP cameras_STEREO_LEFT lidar_info mk_Lidar
                   get_projection_img self idx points
    = (GetFrame ProjImg file (frame_idx + 1) :: later, outcome) /\
    forall file' local_idx,
      In (GetFrame ProjImg file' local_idx) later ->
      file' = file /\ local_idx = frame_idx.
Proof.
  intros Hinit Hidx Hfind Hfile Hinner.
  destruct (lookup_names_buffered_frame _ _ _ _ _ Hinit Hidx)
    as (file_idx' & frame_idx' & file0 & Hfind' & Hfile' & Hin).
  rewrite Hfind in Hfind'. injection Hfind' as <- <-.
  rewrite Hfile in Hfile'. injection Hfile' as <-.
  split; [exact Hin|]. unfold in_frame_range in *.
  split; [lia|].
  unfold project_points, lift, read_frame, emit.
  rewrite Hfind. cbn [mbind app]. rewrite Hfile. cbn [mbind app].
  destruct (getitem file (frame_idx + 1)) as [camera_frame|e].
  - cbn [mbind app].
    destruct (getitem file frame_idx) as [lidar_frame|e]; cbn [mbind app];
      eexists _, _; (split; [reflexivity|]);
      intros file' local_idx Hev;
      repeat (destruct Hev as [Hev|Hev]; try discriminate;
              try (injection Hev as <- <-; now split));
      contradiction.
  - eexists _, _. split; [reflexivity|]. intros ? ? [].
Qed.

End PublicMethods.

(** ** Splitting *)

Lemma split_nonempty (sep : ascii) (s : string) : split sep s <> [].
Proof.
  destruct s as [|c rest]; cbn [split]; [discriminate|].
  destruct (Ascii.eqb c sep); [discriminate|].
  destruct (split sep rest); discriminate.
Qed.

Lemma split_free (sep : ascii) (s : string) :
  contains sep s = false -> split sep s = [s].
Proof.
  induction s as [|c rest IH]; cbn [contains split]; intros Hfree.
  - reflexivity.
  - apply orb_false_elim in Hfree as [Hc Hrest].
    rewrite Hc, (IH Hrest). reflexivity.
Qed.


Lemma split_one (sep : ascii) (s y : string) :
  split sep s = [y] -> s = y /\ contains sep y = false.
Proof.
  revert y; induction s as [|c rest IH]; intros y; cbn [split].
  - intros H. injection H as <-. now split.
  - destruct (Ascii.eqb c sep) eqn:Hc.
    + intros H. injection H as _ Hrest.
      now destruct (split_nonempty sep rest).
    + destruct (split sep rest) as [|hd tl] eqn:Hsplit; intros H.
      * injection H as <-. now destruct (split_nonempty sep rest).
      * injection H as <- ->.
        destruct (IH hd eq_refl) as [-> Hfree].
        split; [reflexivity|]. cbn [contains]. now rewrite Hc, Hfree.
Qed.

Lemma split_two (sep : ascii) (s x y : string) :
  split sep s = [x; y] ->
  s = (x ++ String sep y)%string /\
  contains sep x = false /\ contains sep y = false.
Proof.
  revert x; induction s as [|c rest IH]; intros x; cbn [split].
  - discriminate.
  - destruct (Ascii.eqb c sep) eqn:Hc.
    + intros H. injection H as <- Hrest.
      destruct (split_one sep rest y Hrest) as [-> Hfree].
      apply Ascii.eqb_eq in Hc as ->. now repeat split.
    + destruct (split sep rest) as [|hd tl] eqn:Hsplit; intros H.
      * discriminate.
      * injection H as <- ->.
        destruct (IH hd eq_refl) as (-> & Hx & Hy).
        repeat split; [|exact Hy]. cbn [contains]. now rewrite Hc, Hx.
Qed.


(** ** What [int] reads from a string without a minus sign *)

Lemma contains_in (c : ascii) (s : string) :
  contains c s = false -> ~ In c (list_ascii_of_string s).
Proof.
  induction s as [|d rest IH]; cbn [contains list_ascii_of_string].
  - intros _ [].
  - intros Hfree. apply orb_false_elim in Hfree as [Hd Hrest].
    intros [->|Hin].
    + now rewrite Ascii.eqb_refl in Hd.
    + now apply IH.
Qed.

Lemma lstrip_incl (cs : list ascii) (c : ascii) :
  In c (lstrip cs) -> In c cs.
Proof.
  induction cs as [|d rest IH]; cbn [lstrip]; [auto|].
  destruct (is_space d); [right; auto | auto].
Qed.

Lemma strip_incl (cs : list ascii) (c : ascii) :
  In c (strip cs) -> In c cs.
Proof.
  unfold strip. intros Hin.
  apply in_rev, lstrip_incl, in_rev in Hin. now apply lstrip_incl.
Qed.

Lemma digits_nonneg (cs : list ascii) :
  forall seen acc n v m,
    0 <= acc ->
    digits cs seen acc n = Some (v, m) ->
    0 <= v.
Proof.
  induction cs as [|c rest IH]; intros seen acc n v m Hacc; cbn [digits].
  - destruct seen; [|discriminate]. intros H. injection H as <- _. exact Hacc.
  - unfold digit_of.
    destruct ((48 <=? Z.of_nat (nat_of_ascii c))
              && (Z.of_nat (nat_of_ascii c) <=? 57)) eqn:Hdig.
    + apply andb_true_iff in Hdig as [Hlo Hhi].
      apply Z.leb_le in Hlo, Hhi. apply IH. lia.
    + destruct (Ascii.eqb c "_" && seen); [|discriminate].
      apply IH. exact Hacc.
Qed.

Lemma int_without_minus_nonneg (s : string) (v : Z) :
  contains "-" s = false ->
  int s = Ok v ->
  0 <= v.
Proof.
  intros Hfree. unfold int.
  pose proof (contains_in _ _ Hfree) as Hnot.
  assert (Hbody : ~ In "-"%char (strip (list_ascii_of_string s)))
    by (intros Hin; apply Hnot; now apply strip_incl).
  destruct (strip (list_ascii_of_string s)) as [|c rest].
  - discriminate.
  - destruct (Ascii.eqb c "-") eqn:Hminus.
    + apply Ascii.eqb_eq in Hminus as ->. destruct Hbody. now left.
    + assert (Hcase :
        forall ds,
          match digits ds false 0 0 with
          | Some (v0, n) =>
              if max_str_digits <? n then Raise ValueError else Ok v0
          | None => Raise ValueError
          end = Ok v -> 0 <= v).
      { intros ds. destruct (digits ds false 0 0) as [[v0 n]|] eqn:Hd;
          [|discriminate].
        destruct (max_str_digits <? n); [discriminate|].
        intros H. injection H as <-.
        eapply digits_nonneg; [|exact Hd]. lia. }
      destruct (Ascii.eqb c "+"); apply Hcase.
Qed.

(** ** Failures of the range resolution *)




(** ** Specifiers with and without a range *)



(** X11.  The IDs of a range are never negative: a minus sign in the
    range part is read as the separator. *)
Theorem parse_sequence_ids_nonneg (sequence name : string) (s e : Z) :
  parse_sequence sequence = Ok (name, s, e) ->
  0 <= s /\ 0 <= e.
Proof.
  unfold parse_sequence.
  destruct (split "#" sequence) as [|x [|file_range [|? ?]]];
    cbn [unpack2 bind]; try discriminate.
  destruct (split "-" file_range) as [|a [|b [|? ?]]] eqn:Hdash;
    cbn [unpack2 bind]; try discriminate.
  destruct (int a) as [s'|] eqn:Ha; cbn [bind]; [|discriminate].
  destruct (int b) as [e'|] eqn:Hb; cbn [bind]; [|discriminate].
  intros H. injection H as _ <- <-.
  destruct (split_two _ _ _ _ Hdash) as (_ & Hda & Hdb).
  split;
    [apply (int_without_minus_nonneg a) | apply (int_without_minus_nonneg b)];
    assumption.
Qed.

Lemma parse_sequence_ids_nonneg_witness : 0 <= 11 /\ 0 <= 13.
Proof.
  apply (parse_sequence_ids_nonneg "seq#11-13" "seq" 11 13). reflexivity.
Defined.

Section Specifiers.

Variables Frame ProjImg : Type.
Variable glob : string -> list string.
Variable Dataloader : string -> result (list (FileRecord Frame)).

(** X12.  A specifier without '#' names a directory of its own: the
    notice is printed, the name is the specifier, and the range is the
    whole sorted file list. *)
Theorem plain_specifier_selects_all (data_dir sequence : string)
    (out : list (event Frame ProjImg)) (self : AEIFDataset Frame) :
  contains "#" sequence = false ->
  __init__ ProjImg glob Dataloader data_dir sequence = (out, Ok self) ->
  out = [Print Frame ProjImg no_maneuver_message] /\
  _sequence_name self = sequence /\
  _aeif_sequence_dir self = path_join data_dir sequence /\
  _start_file self = 0 /\
  _end_file self
    = len (sorted (glob (path_join (path_join data_dir sequence) "*.4mse"))).
Proof.
  intros Hplain. apply init_fallback.
  unfold parse_sequence. now rewrite (split_free _ _ Hplain).
Qed.




End Specifiers.

(** ** The resolved range *)




Lemma filter_loop_bounds (files : list string) :
  forall idx start_id end_id start_file end_file a b,
    filter_loop files idx start_id end_id start_file end_file = Ok (a, b) ->
    0 <= start_file <= idx ->
    end_file = idx + len files ->
    0 <= a <= b /\ b <= end_file /\
    (start_file < idx \/ files <> [] -> a < b).
Proof.
  induction files as [|file_path rest IH];
    intros idx start_id end_id start_file end_file a b; cbn [filter_loop].
  - intros H Hsf Hef. injection H as <- <-.
    unfold len in Hef; cbn [List.length] in Hef.
    split; [lia|]. split; [lia|].
    intros [Hlt|Hne]; [lia | congruence].
  - destruct (file_id_of file_path) as [file_id|]; cbn [bind]; [|discriminate].
    intros H Hsf Hef.
    unfold len in Hef; cbn [List.length] in Hef.
    set (start_file' := if (file_id =? start_id) && (start_file =? 0)
                        then idx else start_file) in H.
    assert (Hsf' : 0 <= start_file' <= idx)
      by (unfold start_file';
          destruct ((file_id =? start_id) && (start_file =? 0)); lia).
    destruct (file_id =? end_id).
    + injection H as <- <-. lia.
    + destruct (IH _ _ _ _ _ _ _ H) as (Hab & Hb & Hstrict).
      * lia.
      * unfold len. lia.
      * split; [lia|]. split; [lia|]. intros _. apply Hstrict. left. lia.
Qed.

Section ResolvedRange.

Variable glob : string -> list string.

Lemma filter_file_range_inside (aeif_sequence_dir : string)
    (start_id end_id : option Z) (start_file end_file : Z) :
  _filter_file_range glob aeif_sequence_dir start_id end_id
  = Ok (start_file, end_file) ->
  0 <= start_file <= end_file /\
  end_file <= len (sorted (glob (path_join aeif_sequence_dir "*.4mse"))) /\
  (sorted (glob (path_join aeif_sequence_dir "*.4mse")) <> [] ->
   start_file < end_file).
Proof.
  unfold _filter_file_range. intros H.
  set (all_files := sorted (glob (path_join aeif_sequence_dir "*.4mse"))) in *.
  destruct start_id as [s|], end_id as [e|];
    try (injection H as <- <-; split; [unfold len; lia|]; split; [lia|];
         intros Hne; destruct all_files; [congruence|];
         unfold len; cbn [List.length]; lia).
  destruct (filter_loop_bounds _ _ _ _ _ _ _ _ H) as (Hab & Hb & Hstrict);
    [lia | lia |].
  split; [exact Hab|]. split; [exact Hb|]. intros Hne. apply Hstrict. now right.
Qed.

(** X16.  Whatever range is asked for, the resolved range lies within the
    sorted file list, and with at least one file it is never empty. *)
Theorem filter_file_range_bounds (aeif_sequence_dir : string)
    (start_id end_id : option Z) (start_file end_file : Z) :
  _filter_file_range glob aeif_sequence_dir start_id end_id
  = Ok (start_file, end_file) ->
  let all_files := sorted (glob (path_join aeif_sequence_dir "*.4mse")) in
  0 <= start_file <= end_file /\
  end_file <= len all_files /\
  (all_files <> [] -> start_file < end_file).
Proof.
  intros H all_files.
  exact (filter_file_range_inside _ _ _ _ _ H).
Qed.



End ResolvedRange.

(** ** What is buffered *)

Lemma slice_inner {A : Type} (l : list A) (a b : Z) :
  0 <= a <= b -> b <= len l ->
  slice l a b = firstn (Z.to_nat (b - a)) (skipn (Z.to_nat a) l).
Proof.
  intros Hab Hb. unfold slice, adjust.
  destruct (Z.ltb_spec a 0); [lia|].
  destruct (Z.ltb_spec b 0); [lia|].
  now rewrite !Z.min_l by lia.
Qed.

Lemma index_slice {A : Type} (l : list A) (a b i : Z) :
  0 <= a <= b -> b <= len l ->
  0 <= i < b - a ->
  index (slice l a b) i = index l (a + i).
Proof.
  intros Hab Hb Hi.
  rewrite slice_inner, !index_nonneg by lia.
  rewrite nth_error_firstn.
  destruct (Nat.ltb_spec (Z.to_nat i) (Z.to_nat (b - a))); [|lia].
  rewrite nth_error_skipn.
  now replace (Z.to_nat a + Z.to_nat i)%nat with (Z.to_nat (a + i)) by lia.
Qed.

Lemma len_slice {A : Type} (l : list A) (a b : Z) :
  0 <= a <= b -> b <= len l ->
  len (slice l a b) = b - a.
Proof.
  intros Hab Hb. rewrite slice_inner by lia.
  unfold len in *. rewrite length_firstn, length_skipn. lia.
Qed.

Section Buffer.

Variables Frame Lidar Image Info ProjImg Array Scalar : Type.
Variable frame_timestamp : Frame -> Scalar.
Variable lidars_TOP : Frame -> Lidar.
Variable cameras_STEREO_LEFT : Frame -> Image.
Variable field : Lidar -> string -> Array.
Variable lidar_info : Lidar -> Info.
Variable mk_Lidar : Info -> Array -> Lidar.
Variable get_projection_img : Image -> Lidar -> ProjImg.
Variable np_stack : list Array -> Array.
Variable np_min np_max : Array -> result Array.
Variable np_sub np_div : Array -> Array -> Array.
Variable glob : string -> list string.
Variable Dataloader : string -> result (list (FileRecord Frame)).

(** X19.  When the reader holds at least as many records as the resolved
    range asks for, the buffer of a constructed dataset is that run of
    the reader's records: [end_file - start_file] of them, the record at
    buffer position [i] being the reader's record [start_file + i]. *)
Theorem buffer_is_resolved_run (data_dir sequence : string)
    (out : list (event Frame ProjImg)) (self : AEIFDataset Frame)
    (records : list (FileRecord Frame)) :
  __init__ ProjImg glob Dataloader data_dir sequence = (out, Ok self) ->
  Dataloader (_aeif_sequence_dir self) = Ok records ->
  _end_file self <= len records ->
  len (_files_buffer self) = _end_file self - _start_file self /\
  forall i,
    0 <= i < _end_file self - _start_file self ->
    index (_files_buffer self) i = index records (_start_file self + i).
Proof.
  intros Hinit Hload Hend.
  destruct (init_state _ _ _ _ _ _ _ _ Hinit)
    as (records' & Hload' & Hdir & Hscan & Hbuffer & _).
  rewrite Hload in Hload'. injection Hload' as <-.
  assert (Hrange : 0 <= _start_file self <= _end_file self).
  { revert Hinit. unfold __init__, lift, emit, mret.
    destruct (parse_sequence sequence) as [[[name s] e]|[]]; cbn [mbind];
      try discriminate.
    all: match goal with
         | |- context [_filter_file_range glob ?d ?s ?e] =>
             destruct (_filter_file_range glob d s e)
               as [[start_file end_file]|] eqn:Hfilter;
             cbn [mbind]; [|discriminate];
             destruct (Dataloader d); cbn [mbind]; [|discriminate]
         end.
    all: intros H; injection H as _ <-; cbn;
         now destruct (filter_file_range_inside glob _ _ _ _ _ Hfilter). }
  rewrite Hbuffer, Hscan. split.
  - now apply len_slice.
  - intros i Hi. now apply index_slice.
Qed.

(** X20.  When the reader has no records for the directory, the
    constructed dataset is empty: its length is 0, every index is refused
    with the ValueError of the lookup, and there are no timestamps. *)
Theorem empty_directory_gives_empty_dataset (data_dir sequence : string)
    (out : list (event Frame ProjImg)) (self : AEIFDataset Frame) :
  __init__ ProjImg glob Dataloader data_dir sequence = (out, Ok self) ->
  Dataloader (_aeif_sequence_dir self) = Ok [] ->
  __len__ self = 0 /\
  (forall idx,
      __getitem__ ProjImg lidars_TOP field np_stack np_min np_max np_sub
                  np_div self idx
      = ([], Raise ValueError)) /\
  (forall idx points,
      project_points lidars_TOP cameras_STEREO_LEFT lidar_info mk_Lidar
                     get_projection_img self idx points
      = ([], Raise ValueError)) /\
  get_frames_timestamps frame_timestamp self = [].
Proof.
  intros Hinit Hload.
  destruct (init_state _ _ _ _ _ _ _ _ Hinit)
    as (records & Hload' & _ & Hscan & Hbuffer & Hframes).
  rewrite Hload in Hload'. injection Hload' as <-.
  assert (Hempty : _files_buffer self = []).
  { rewrite Hbuffer, Hscan. unfold slice.
    now rewrite skipn_nil, firstn_nil. }
  rewrite Hempty in Hframes. cbn [map] in Hframes.
  unfold __len__, __getitem__, project_points, get_frames_timestamps,
    _find_file_and_frame, lift.
  rewrite Hframes, Hempty. repeat split.
Qed.

(** X22.  What [dataset[idx]] returns: the stacked x, y, z fields of the
    top lidar of the frame the lookup designates, and that lidar's t
    field less its minimum, divided by its maximum less its minimum. *)
Theorem getitem_returns_cloud_of_looked_up_frame (self : AEIFDataset Frame)
    (idx : Z) (events : list (event Frame ProjImg)) (xyz ts : Array) :
  __getitem__ ProjImg lidars_TOP field np_stack np_min np_max np_sub np_div
              self idx
  = (events, Ok (xyz, ts)) ->
  exists file_idx frame_idx file frame lo hi,
    _find_file_and_frame self idx = Ok (file_idx, frame_idx) /\
    index (_files_buffer self) file_idx = Ok file /\
    getitem file frame_idx = Ok frame /\
    events = [GetFrame ProjImg file frame_idx] /\
    np_min (field (lidars_TOP frame) "t") = Ok lo /\
    np_max (field (lidars_TOP frame) "t") = Ok hi /\
    xyz = np_stack [field (lidars_TOP frame) "x";
                    field (lidars_TOP frame) "y";
                    field (lidars_TOP frame) "z"] /\
    ts = np_div (np_sub (field (lidars_TOP frame) "t") lo) (np_sub hi lo).
Proof.
  unfold __getitem__, scans, read_point_cloud, _get_timestamps, read_frame,
    lift, mret.
  destruct (_find_file_and_frame self idx) as [[file_idx frame_idx]|]
    eqn:Hfind; cbn [mbind app]; [|discriminate].
  destruct (index (_files_buffer self) file_idx) as [file|] eqn:Hfile;
    cbn [mbind app]; [|discriminate].
  destruct (getitem file frame_idx) as [frame|] eqn:Hframe;
    cbn [mbind app]; [|discriminate].
  destruct (np_min (field (lidars_TOP frame) "t")) as [lo|] eqn:Hlo;
    cbn [bind mbind app]; [|discriminate].
  destruct (np_max (field (lidars_TOP frame) "t")) as [hi|] eqn:Hhi;
    cbn [bind mbind app]; [|discriminate].
  intros H. injection H as <- <- <-.
  exists file_idx, frame_idx, file, frame, lo, hi.
  repeat split; assumption || reflexivity.
Qed.

End Buffer.

(** ** The ID in a file name *)



(** ** The further properties on the sample *)

Lemma seq_11_13_constructed :
  __init__ (Z * Z) Sample.glob Sample.Dataloader "data" "seq#11-13"
  = ([], Ok Sample.seq_11_13).
Proof. vm_compute. reflexivity. Qed.

Lemma no_seq_constructed :
  __init__ (Z * Z) Sample.glob Sample.Dataloader "data" "none"
  = ([Print Z (Z * Z) no_maneuver_message], Ok Sample.no_seq).
Proof. vm_compute. reflexivity. Qed.

Lemma index_past_end_rejected_witness :
  __getitem__ (Z * Z) Sample.top Sample.field_of Sample.stack Sample.whole
              Sample.whole Sample.left_arg Sample.left_arg
              Sample.whole_seq 12
  = ([], Raise ValueError) /\
  project_points Sample.top Sample.camera Sample.info_of Sample.lidar_with
                 Sample.projection Sample.whole_seq 12 None
  = ([], Raise ValueError).
Proof.
  apply (index_past_end_rejected Z Z Z Z (Z * Z) (list Z) Sample.top
           Sample.camera Sample.field_of Sample.info_of Sample.lidar_with
           Sample.projection Sample.stack Sample.whole Sample.whole
           Sample.left_arg Sample.left_arg Sample.whole_seq 12 None).
  - repeat constructor; discriminate.
  - vm_compute. discriminate.
Defined.

Lemma negative_index_reaches_first_file_witness :
  _find_file_and_frame Sample.whole_seq (-2) = Ok (0, -2) /\
  exists outcome,
    __getitem__ (Z * Z) Sample.top Sample.field_of Sample.stack Sample.whole
                Sample.whole Sample.left_arg Sample.left_arg
                Sample.whole_seq (-2)
    = ([GetFrame (Z * Z) (Sample.record_of [100; 101; 102]) (-2)], outcome).
Proof.
  apply (negative_index_reaches_first_file Z Z (Z * Z) (list Z) Sample.top
           Sample.field_of Sample.stack Sample.whole Sample.whole
           Sample.left_arg Sample.left_arg Sample.whole_seq (-2) 3
           [2; 4; 1; 2] (Sample.record_of [100; 101; 102])).
  - reflexivity.
  - reflexivity.
  - lia.
  - lia.
Defined.

Lemma getitem_valid_reads_one_frame_witness :
  exists file_idx frame_idx file outcome,
    _find_file_and_frame Sample.whole_seq 5 = Ok (file_idx, frame_idx) /\
    index (_files_buffer Sample.whole_seq) file_idx = Ok file /\
    in_frame_range file frame_idx /\
    __getitem__ (Z * Z) Sample.top Sample.field_of Sample.stack Sample.whole
                Sample.whole Sample.left_arg Sample.left_arg
                Sample.whole_seq 5
    = ([GetFrame (Z * Z) file frame_idx], outcome).
Proof.
  apply (getitem_valid_reads_one_frame Z Z (Z * Z) (list Z) Sample.top
           Sample.field_of Sample.stack Sample.whole Sample.whole
           Sample.left_arg Sample.left_arg Sample.glob Sample.Dataloader
           "data" "seq" [Print Z (Z * Z) no_maneuver_message]
           Sample.whole_seq 5).
  - vm_compute. reflexivity.
  - vm_compute. split; [discriminate | reflexivity].
Defined.

Lemma project_points_pairs_next_camera_witness :
  exists file_idx frame_idx file camera_frame lidar_frame,
    _find_file_and_frame Sample.whole_seq 3 = Ok (file_idx, frame_idx) /\
    index (_files_buffer Sample.whole_seq) file_idx = Ok file /\
    getitem file (frame_idx + 1) = Ok camera_frame /\
    getitem file frame_idx = Ok lidar_frame /\
    [GetFrame (Z * Z) (Sample.record_of [110; 111]) 1;
     GetFrame (Z * Z) (Sample.record_of [110; 111]) 0;
     Save Z "3.png" (111, 110)]
    = [GetFrame (Z * Z) file (frame_idx + 1);
       GetFrame (Z * Z) file frame_idx;
       Save Z (png_name 3)
            (Sample.projection (Sample.camera camera_frame)
                               (Sample.top lidar_frame))].
Proof.
  apply (project_points_pairs_next_camera Z Z Z Z (Z * Z) (list Z)
           Sample.top Sample.camera Sample.info_of Sample.lidar_with
           Sample.projection Sample.whole_seq 3 None
           [GetFrame (Z * Z) (Sample.record_of [110; 111]) 1;
            GetFrame (Z * Z) (Sample.record_of [110; 111]) 0;
            Save Z "3.png" (111, 110)]).
  vm_compute. reflexivity.
Defined.

Lemma project_points_failure_saves_nothing_witness :
  saved [GetFrame (Z * Z) (Sample.record_of [110; 111]) 2] = [].
Proof.
  apply (project_points_failure_saves_nothing Z Z Z Z (Z * Z) (list Z)
           Sample.top Sample.camera Sample.info_of Sample.lidar_with
           Sample.projection Sample.whole_seq 4 None
           [GetFrame (Z * Z) (Sample.record_of [110; 111]) 2] IndexError).
  vm_compute. reflexivity.
Defined.

Lemma project_points_inner_frame_in_range_witness :
  in_frame_range (Sample.record_of [110; 111]) 0 /\
  in_frame_range (Sample.record_of [110; 111]) (0 + 1) /\
  exists later outcome,
    project_points Sample.top Sample.camera Sample.info_of Sample.lidar_with
                   Sample.projection Sample.whole_seq 3 None
    = (GetFrame (Z * Z) (Sample.record_of [110; 111]) (0 + 1) :: later,
       outcome) /\
    forall file' local_idx,
      In (GetFrame (Z * Z) file' local_idx) later ->
      file' = Sample.record_of [110; 111] /\ local_idx = 0.
Proof.
  apply (project_points_inner_frame_in_range Z Z Z Z (Z * Z) (list Z)
           Sample.top Sample.camera Sample.info_of Sample.lidar_with
           Sample.projection Sample.glob Sample.Dataloader "data" "seq"
           [Print Z (Z * Z) no_maneuver_message] Sample.whole_seq 3 None 1 0
           (Sample.record_of [110; 111])).
  - vm_compute. reflexivity.
  - vm_compute. split; [discriminate | reflexivity].
  - reflexivity.
  - reflexivity.
  - vm_compute. reflexivity.
Defined.


Lemma plain_specifier_selects_all_witness :
  [Print Z (Z * Z) no_maneuver_message]
  = [Print Z (Z * Z) no_maneuver_message] /\
  _sequence_name Sample.whole_seq = "seq" /\
  _aeif_sequence_dir Sample.whole_seq = path_join "data" "seq" /\
  _start_file Sample.whole_seq = 0 /\
  _end_file Sample.whole_seq
    = len (sorted (Sample.glob (path_join (path_join "data" "seq") "*.4mse"))).
Proof.
  apply (plain_specifier_selects_all Z (Z * Z) Sample.glob Sample.Dataloader
           "data" "seq" [Print Z (Z * Z) no_maneuver_message]
           Sample.whole_seq).
  - reflexivity.
  - vm_compute. reflexivity.
Defined.



Lemma filter_file_range_bounds_witness :
  let all_files := sorted (Sample.glob (path_join "data/seq" "*.4mse")) in
  0 <= 1 <= 4 /\ 4 <= len all_files /\ (all_files <> [] -> 1 < 4).
Proof.
  apply (filter_file_range_bounds Sample.glob "data/seq" (Some 11) (Some 13)
           1 4).
  reflexivity.
Defined.



Lemma buffer_is_resolved_run_witness :
  len (_files_buffer Sample.seq_11_13)
  = _end_file Sample.seq_11_13 - _start_file Sample.seq_11_13 /\
  forall i,
    0 <= i < _end_file Sample.seq_11_13 - _start_file Sample.seq_11_13 ->
    index (_files_buffer Sample.seq_11_13) i
    = index Sample.seq_records (_start_file Sample.seq_11_13 + i).
Proof.
  apply (buffer_is_resolved_run Z (Z * Z) Sample.glob Sample.Dataloader
           "data" "seq#11-13" [] Sample.seq_11_13 Sample.seq_records).
  - vm_compute. reflexivity.
  - reflexivity.
  - vm_compute. discriminate.
Defined.

Lemma empty_directory_gives_empty_dataset_witness :
  __len__ Sample.no_seq = 0 /\
  (forall idx,
      __getitem__ (Z * Z) Sample.top Sample.field_of Sample.stack
                  Sample.whole Sample.whole Sample.left_arg Sample.left_arg
                  Sample.no_seq idx
      = ([], Raise ValueError)) /\
  (forall idx points,
      project_points Sample.top Sample.camera Sample.info_of
                     Sample.lidar_with Sample.projection Sample.no_seq idx
                     points
      = ([], Raise ValueError)) /\
  get_frames_timestamps (fun t : Z => t) Sample.no_seq = [].
Proof.
  apply (empty_directory_gives_empty_dataset Z Z Z Z (Z * Z) (list Z) Z
           (fun t => t) Sample.top Sample.camera Sample.field_of
           Sample.info_of Sample.lidar_with Sample.projection Sample.stack
           Sample.whole Sample.whole Sample.left_arg Sample.left_arg
           Sample.glob Sample.Dataloader "data" "none"
           [Print Z (Z * Z) no_maneuver_message] Sample.no_seq).
  - vm_compute. reflexivity.
  - reflexivity.
Defined.


Lemma getitem_returns_cloud_of_looked_up_frame_witness :
  exists file_idx frame_idx file frame lo hi,
    _find_file_and_frame Sample.whole_seq 5 = Ok (file_idx, frame_idx) /\
    index (_files_buffer Sample.whole_seq) file_idx = Ok file /\
    getitem file frame_idx = Ok frame /\
    [GetFrame (Z * Z) (Sample.record_of [120; 121; 122; 123]) 0]
    = [GetFrame (Z * Z) file frame_idx] /\
    Sample.whole (Sample.field_of (Sample.top frame) "t") = Ok lo /\
    Sample.whole (Sample.field_of (Sample.top frame) "t") = Ok hi /\
    [120; 120; 120]
    = Sample.stack [Sample.field_of (Sample.top frame) "x";
                    Sample.field_of (Sample.top frame) "y";
                    Sample.field_of (Sample.top frame) "z"] /\
    [120]
    = Sample.left_arg
        (Sample.left_arg (Sample.field_of (Sample.top frame) "t") lo)
        (Sample.left_arg hi lo).
Proof.
  apply (getitem_returns_cloud_of_looked_up_frame Z Z (Z * Z) (list Z)
           Sample.top Sample.field_of Sample.stack Sample.whole Sample.whole
           Sample.left_arg Sample.left_arg Sample.whole_seq 5
           [GetFrame (Z * Z) (Sample.record_of [120; 121; 122; 123]) 0]
           [120; 120; 120] [120]).
  vm_compute. reflexivity.
Defined.
